(** * gin-contrib-signedauth, example manager: [StrictSHA1Manager]

    A shallow embedding of [example/mgr.go].  The two methods of the
    manager, [CheckHeader] and [Authorize], are transcribed as Rocq
    functions; the Go library calls they make ([http.Header.Get],
    [time.Parse], [time.Since], [ioutil.ReadAll], [md5], [hex]) are modelled
    by executable definitions in the modules below. *)

From Stdlib Require Import ZArith String Ascii List Lia.
From Stdlib.Strings Require Import Byte.
From stdpp Require Import gmap strings.

Local Open Scope Z_scope.

(** ** Byte sequences ([[]byte]) *)

Module Bytes.

Definition to_Z (b : byte) : Z := Z.of_N (Byte.to_N b).

(** Conversion [byte(x)] of an integer: the low eight bits are kept. *)
Definition of_Z (z : Z) : byte :=
  match Byte.of_N (Z.to_N (z mod 256)) with
  | Some b => b
  | None => x00
  end.

(** A Go [string] is a byte sequence; so is a Rocq [string]. *)
Definition of_string (s : string) : list byte := String.list_byte_of_string s.

End Bytes.

(** ** [encoding/hex] *)

Module Hex.

(** [const hextable = "0123456789abcdef"] *)
Definition hextable : string := "0123456789abcdef".

Definition digit (n : Z) : ascii :=
  match String.get (Z.to_nat n) hextable with
  | Some c => c
  | None => "0"%char
  end.

(** [hex.EncodeToString]: two digits per byte, high nibble first. *)
Fixpoint EncodeToString (src : list byte) : string :=
  match src with
  | [] => ""
  | b :: rest =>
      String (digit (Z.shiftr (Bytes.to_Z b) 4))
        (String (digit (Z.land (Bytes.to_Z b) 15)) (EncodeToString rest))
  end.

(** [fromHexChar], on the digits [EncodeToString] writes. *)
Definition fromHexChar (c : ascii) : Z :=
  let n := Z.of_N (N_of_ascii c) in
  if (48 <=? n) && (n <=? 57) then n - 48 else n - 97 + 10.

End Hex.

(** ** [crypto/md5] (RFC 1321) *)

Module MD5.

Definition wrap32 (x : Z) : Z := x mod 2 ^ 32.

(** [bits.RotateLeft32] *)
Definition rotl32 (x s : Z) : Z :=
  Z.lor (wrap32 (Z.shiftl x s)) (Z.shiftr x (32 - s)).

Definition not32 (x : Z) : Z := Z.lxor x 0xffffffff.

(** The sine table, [floor (2^32 * abs (sin (i + 1)))]. *)
Definition K : list Z :=
  [ 0xd76aa478; 0xe8c7b756; 0x242070db; 0xc1bdceee;
    0xf57c0faf; 0x4787c62a; 0xa8304613; 0xfd469501;
    0x698098d8; 0x8b44f7af; 0xffff5bb1; 0x895cd7be;
    0x6b901122; 0xfd987193; 0xa679438e; 0x49b40821;
    0xf61e2562; 0xc040b340; 0x265e5a51; 0xe9b6c7aa;
    0xd62f105d; 0x02441453; 0xd8a1e681; 0xe7d3fbc8;
    0x21e1cde6; 0xc33707d6; 0xf4d50d87; 0x455a14ed;
    0xa9e3e905; 0xfcefa3f8; 0x676f02d9; 0x8d2a4c8a;
    0xfffa3942; 0x8771f681; 0x6d9d6122; 0xfde5380c;
    0xa4beea44; 0x4bdecfa9; 0xf6bb4b60; 0xbebfbc70;
    0x289b7ec6; 0xeaa127fa; 0xd4ef3085; 0x04881d05;
    0xd9d4d039; 0xe6db99e5; 0x1fa27cf8; 0xc4ac5665;
    0xf4292244; 0x432aff97; 0xab9423a7; 0xfc93a039;
    0x655b59c3; 0x8f0ccc92; 0xffeff47d; 0x85845dd1;
    0x6fa87e4f; 0xfe2ce6e0; 0xa3014314; 0x4e0811a1;
    0xf7537e82; 0xbd3af235; 0x2ad7d2bb; 0xeb86d391 ].

(** Per-round shift amounts. *)
Definition shifts : list Z :=
  [ 7; 12; 17; 22; 7; 12; 17; 22; 7; 12; 17; 22; 7; 12; 17; 22;
    5; 9; 14; 20; 5; 9; 14; 20; 5; 9; 14; 20; 5; 9; 14; 20;
    4; 11; 16; 23; 4; 11; 16; 23; 4; 11; 16; 23; 4; 11; 16; 23;
    6; 10; 15; 21; 6; 10; 15; 21; 6; 10; 15; 21; 6; 10; 15; 21 ].

Definition digest_state : Type := Z * Z * Z * Z.

Definition init : digest_state :=
  (0x67452301, 0xefcdab89, 0x98badcfe, 0x10325476).

(** One of the sixty-four operations on a block [M] of sixteen words. *)
Definition op (M : list Z) (st : digest_state) (i : nat) : digest_state :=
  let '(a, b, c, d) := st in
  let '(f, g) :=
    match (i / 16)%nat with
    | 0%nat => (Z.lor (Z.land b c) (Z.land (not32 b) d), i)
    | 1%nat => (Z.lor (Z.land d b) (Z.land (not32 d) c), (5 * i + 1) mod 16)%nat
    | 2%nat => (Z.lxor (Z.lxor b c) d, (3 * i + 5) mod 16)%nat
    | _ => (Z.lxor c (Z.lor b (not32 d)), (7 * i) mod 16)%nat
    end in
  let t := wrap32 (f + a + nth i K 0 + nth g M 0) in
  (d, wrap32 (b + rotl32 t (nth i shifts 0)), b, c).

(** Little-endian decoding of the words of a block. *)
Fixpoint words (n : nat) (p : list Z) : list Z :=
  match n, p with
  | S n', b0 :: b1 :: b2 :: b3 :: rest =>
      (b0 + 256 * b1 + 65536 * b2 + 16777216 * b3) :: words n' rest
  | _, _ => []
  end.

(** [block]: the compression function on one 64-byte chunk. *)
Definition block (st : digest_state) (chunk : list Z) : digest_state :=
  let M := words 16 chunk in
  let '(a, b, c, d) := st in
  let '(a', b', c', d') := fold_left (op M) (seq 0 64) st in
  (wrap32 (a + a'), wrap32 (b + b'), wrap32 (c + c'), wrap32 (d + d')).

Fixpoint blocks (n : nat) (st : digest_state) (p : list Z) : digest_state :=
  match n with
  | O => st
  | S n' => blocks n' (block st (firstn 64 p)) (skipn 64 p)
  end.

Definition le_bytes (n : nat) (x : Z) : list Z :=
  map (fun i => Z.shiftr x (8 * Z.of_nat i) mod 256) (seq 0 n).

(** Padding: a one bit, zeros up to 56 bytes modulo 64, then the
    length in bits as a little-endian [uint64]. *)
Definition pad (len : Z) : list Z :=
  0x80 :: repeat 0 (Z.to_nat ((55 - len) mod 64))
    ++ le_bytes 8 ((8 * len) mod 2 ^ 64).

(** [md5.New(); Write(data); Sum(nil)]: the 16-byte checksum. *)
Definition Sum (data : list byte) : list byte :=
  let p := map Bytes.to_Z data ++ pad (Z.of_nat (length data)) in
  let '(a, b, c, d) := blocks (length p / 64) init p in
  map Bytes.of_Z (le_bytes 4 a ++ le_bytes 4 b ++ le_bytes 4 c ++ le_bytes 4 d).

End MD5.

(** ** [time] *)

Module Time.

(** A [time.Time] in UTC without monotonic reading, as the number of
    nanoseconds since the Unix epoch; a [time.Duration] is a count of
    nanoseconds held in an [int64]. *)
Definition Time : Type := Z.
Definition Duration : Type := Z.

Definition Second : Duration := 1000000000.
Definition Minute : Duration := 60 * Second.
Definition minDuration : Duration := - 2 ^ 63.
Definition maxDuration : Duration := 2 ^ 63 - 1.

(** [t.Sub(u)]: the difference, saturated to the range of [Duration]. *)
Definition Sub (t u : Time) : Duration :=
  Z.max minDuration (Z.min maxDuration (t - u)).

(** [time.Since(t)], read at the instant [now]. *)
Definition Since (now t : Time) : Duration := Sub now t.

Definition is_digit (c : ascii) : bool :=
  let n := Z.of_N (N_of_ascii c) in (48 <=? n) && (n <=? 57).

Definition digit_val (c : ascii) : Z := Z.of_N (N_of_ascii c) - 48.

(** [isDigit(s, i)]: in range and a decimal digit. *)
Definition isDigit (s : string) (i : nat) : bool :=
  match String.get i s with
  | Some c => is_digit c
  | None => false
  end.

(** [s[n:]] *)
Fixpoint drop (n : nat) (s : string) : string :=
  match n, s with
  | S n', String _ s' => drop n' s'
  | _, _ => s
  end.

(** [getnum]: one or two digits, two required when [fixed]. *)
Definition getnum (s : string) (fixed : bool) : option (Z * string) :=
  match s with
  | String c0 (String c1 rest) =>
      if negb (is_digit c0) then None
      else if negb (is_digit c1) then
        if fixed then None else Some (digit_val c0, String c1 rest)
      else Some (digit_val c0 * 10 + digit_val c1, rest)
  | String c0 EmptyString =>
      if negb (is_digit c0) then None
      else if fixed then None else Some (digit_val c0, EmptyString)
  | EmptyString => None
  end.

(** [leadingInt] followed by the test that nothing remains: the value
    of a string made of digits only. *)
Fixpoint digits (acc : Z) (s : string) : option Z :=
  match s with
  | EmptyString => Some acc
  | String c s' => if is_digit c then digits (acc * 10 + digit_val c) s' else None
  end.

(** [atoi]: an optional sign, then digits only. *)
Definition atoi (s : string) : option Z :=
  match s with
  | String "-" s' => x ← digits 0 s'; Some (- x)
  | String "+" s' => digits 0 s'
  | _ => digits 0 s
  end.

(** [skip(value, prefix)] for a prefix without spaces. *)
Fixpoint skip (value prefix : string) : option string :=
  match prefix, value with
  | EmptyString, _ => Some value
  | String p prefix', String v value' =>
      if Ascii.eqb v p then skip value' prefix' else None
  | String _ _, EmptyString => None
  end.

Definition isLeap (year : Z) : bool :=
  (year mod 4 =? 0) && (negb (year mod 100 =? 0) || (year mod 400 =? 0)).

Definition daysIn (month year : Z) : Z :=
  if (month =? 2) then (if isLeap year then 29 else 28)
  else if (month =? 4) || (month =? 6) || (month =? 9) || (month =? 11) then 30
  else 31.

(** Days from 1970-01-01 to the given proleptic Gregorian date. *)
Definition daysSinceEpoch (year month day : Z) : Z :=
  let y := if month <=? 2 then year - 1 else year in
  let era := y / 400 in
  let yoe := y - era * 400 in
  let mp := if month <=? 2 then month + 9 else month - 3 in
  let doy := (153 * mp + 2) / 5 + day - 1 in
  let doe := yoe * 365 + yoe / 4 - yoe / 100 + doy in
  era * 146097 + doe - 719468.

(** [time.Date(year, month, day, hour, min, sec, nsec, time.UTC)] for
    fields already in range. *)
Definition Date (year month day hour min sec nsec : Z) : Time :=
  (((daysSinceEpoch year month day * 24 + hour) * 60 + min) * 60 + sec)
    * Second + nsec.

(** [parseNanoseconds(value, 4)] for the chunk [".000"]: a period or (as
    of Go 1.17) a comma, then [atoi] of the three following bytes, which
    may not be negative, scaled to nanoseconds. *)
Definition parseNanoseconds (value : string) : option Z :=
  match value with
  | String c rest =>
      if Ascii.eqb c "." || Ascii.eqb c "," then
        ns ← atoi (String.substring 0 3 rest);
        if ns <? 0 then None else Some (ns * 1000000)
      else None
  | EmptyString => None
  end.

(** [time.Parse("2006-01-02T15:04:05.000Z", value)].  The layout splits
    into the chunks [stdLongYear], ["-"], [stdZeroMonth], ["-"],
    [stdZeroDay], ["T"], [stdHour], [":"], [stdZeroMinute], [":"],
    [stdZeroSecond], [stdFracSecond0] with three digits, and the
    literal ["Z"]; no zone is read, so the result is in UTC.  [None]
    stands for a non-nil [error]. *)
Definition Parse (value : string) : option Time :=
  (* stdLongYear *)
  if (String.length value <? 4)%nat || negb (isDigit value 0) then None else
  year ← atoi (String.substring 0 4 value);
  let value := drop 4 value in
  value ← skip value "-";
  (* stdZeroMonth *)
  '(month, value) ← getnum value true;
  if (month <=? 0) || (12 <? month) then None else
  value ← skip value "-";
  (* stdZeroDay *)
  '(day, value) ← getnum value true;
  value ← skip value "T";
  (* stdHour *)
  '(hour, value) ← getnum value false;
  if (hour <? 0) || (24 <=? hour) then None else
  value ← skip value ":";
  (* stdZeroMinute *)
  '(min, value) ← getnum value true;
  if (min <? 0) || (60 <=? min) then None else
  value ← skip value ":";
  (* stdZeroSecond *)
  '(sec, value) ← getnum value true;
  if (sec <? 0) || (60 <=? sec) then None else
  (* stdFracSecond0 *)
  if (String.length value <? 4)%nat then None else
  nsec ← parseNanoseconds value;
  let value := drop 4 value in
  value ← skip value "Z";
  if negb (String.length value =? 0)%nat then None else
  (* validate the day of the month *)
  if (day <? 1) || (daysIn month year <? day) then None else
  Some (Date year month day hour min sec nsec).

End Time.

(** ** [net/http] and [io/ioutil] *)

Module Http.

(** A request body ([io.ReadCloser]), by what reading it to the end
    gives: all its bytes, or some bytes and then a read error. *)
Inductive ReadCloser : Type :=
| Readable (data : list byte)
| Broken (data : list byte) (cause : string).

(** [ioutil.ReadAll]: the bytes read and the error, if any. *)
Definition ReadAll (r : ReadCloser) : list byte * option string :=
  match r with
  | Readable data => (data, None)
  | Broken data cause => (data, Some cause)
  end.

(** The fields of [http.Request] that the manager reads.  [Body] is
    [None] for a nil body; [Header] maps canonical keys to their values. *)
Record Request : Type := {
  Method : string;
  Header : gmap string (list string);
  Body : option ReadCloser;
  ContentLength : Z
}.

(** [req.Body == nil] *)
Definition is_nil (b : option ReadCloser) : bool :=
  match b with
  | None => true
  | Some _ => false
  end.

(** [Header.Get] at a key already in canonical form, such as ["Date"]:
    the first value of the key, or the empty string. *)
Definition Get (h : gmap string (list string)) (key : string) : string :=
  match h !! key with
  | Some (v :: _) => v
  | _ => ""
  end.

End Http.

(** ** Package [signedauth] *)

(** Modelled from the spec: the declaration of [signedauth.AuthErr] is not
    part of [example/mgr.go]; an AuthError is a (status-code, cause) pair.
    The cause, built by [errors.New], is kept as its message. *)
Record AuthErr : Type := { Status : Z; Err : string }.

(** Modelled from the spec: [signedauth.HMACManager], embedded by pointer in
    the example manager, is declared outside [example/mgr.go]; it is the
    generic keyed-hash helper used as a base capability, and neither method
    of the manager reads it. *)
Inductive HMACManager : Type := mkHMACManager.

(** ** The example manager *)

Record StrictSHA1Manager : Type := {
  Secret : string;
  embedded : option HMACManager
}.

(** What a call observably does besides returning: draining the body and
    running the digest. *)
Inductive Event : Type :=
| EvReadAll
| EvMD5 (data : list byte).

(** The three values [CheckHeader] returns; [None] is a nil [*AuthErr]. *)
Record Returned : Type := {
  secret : string;
  serializedData : string;
  autherr : option AuthErr
}.

Definition failure (status : Z) (msg : string) : Returned :=
  {| secret := ""; serializedData := ""; autherr := Some {| Status := status; Err := msg |} |}.

Definition LF : string := String (ascii_of_nat 10) "".

(** [CheckHeader], with the events of the call in order.  [now] is the
    reading of the clock taken by [time.Since]. *)
Definition CheckHeader_run (m : StrictSHA1Manager) (now : Time.Time)
    (access : string) (req : Http.Request) : list Event * Returned :=
  if negb (Http.ContentLength req =? 0) && Http.is_nil (Http.Body req) then
    ([], failure 400 "received a forged packet")
  else
  let dateHeader := Http.Get (Http.Header req) "Date" in
  if String.eqb dateHeader "" then
    ([], failure 406 "no Date header provided")
  else
  match Time.Parse dateHeader with
  | None => ([], failure 408 "could not parse date")
  | Some date =>
    if Time.Minute * 15 <? Time.Since now date then
      ([], failure 410 "request is too old")
    else
    if String.eqb access "my_access_key" then
      let serializedData := Http.Method req +:+ LF in
      if negb (Http.ContentLength req =? 0) then
        match Http.Body req with
        | Some rd =>
            let '(body, err) := Http.ReadAll rd in
            match err with
            | Some _ => ([EvReadAll], failure 402 "could not read the body")
            | None =>
                let hash := MD5.Sum body in
                let serializedData :=
                  serializedData +:+ (Hex.EncodeToString hash +:+ LF) in
                let serializedData :=
                  serializedData +:+ Http.Get (Http.Header req) "Date" in
                ([EvReadAll; EvMD5 body],
                 {| secret := Secret m; serializedData := serializedData;
                    autherr := None |})
            end
        | None =>
            (* not reached: a nil body with a non-zero length was answered
               by the first test *)
            ([], failure 400 "received a forged packet")
        end
      else
        let serializedData := serializedData +:+ LF in
        let serializedData :=
          serializedData +:+ Http.Get (Http.Header req) "Date" in
        ([], {| secret := Secret m; serializedData := serializedData;
                autherr := None |})
    else ([], failure 418 "you are a teapot")
  end.

Definition CheckHeader (m : StrictSHA1Manager) (now : Time.Time)
    (access : string) (req : Http.Request) : Returned :=
  snd (CheckHeader_run m now access req).

Definition CheckHeader_events (m : StrictSHA1Manager) (now : Time.Time)
    (access : string) (req : Http.Request) : list Event :=
  fst (CheckHeader_run m now access req).

(** A value of type [interface{}]: nil, or a boxed string. *)
Inductive any : Type :=
| any_nil
| any_string (s : string).

Definition Authorize (m : StrictSHA1Manager) (access : string) : any :=
  if String.eqb access "my_access_key" then any_string "All good with my access key!"
  else any_string "All good with any access key!".

(** ** Vocabulary of the statements *)

(** The value of the [Date] header, as [CheckHeader] reads it. *)
Definition dateHeader (req : Http.Request) : string :=
  Http.Get (Http.Header req) "Date".

(** A non-zero content length with a nil body. *)
Definition forged (req : Http.Request) : Prop :=
  Http.ContentLength req <> 0 /\ Http.Body req = None.

(** The status code of the returned error, if there is one. *)
Definition status (r : Returned) : option Z :=
  match autherr r with
  | Some e => Some (Status e)
  | None => None
  end.

(** The bytes the body delivers when read. *)
Definition rawBody (req : Http.Request) : list byte :=
  match Http.Body req with
  | Some rd => fst (Http.ReadAll rd)
  | None => []
  end.

(** The middle line of the signing string. *)
Definition bodyDigest (req : Http.Request) : string :=
  if Http.ContentLength req =? 0 then ""
  else Hex.EncodeToString (MD5.Sum (rawBody req)).

(** A request fails a structural check: the body test or one of the three
    rules on the [Date] header. *)
Definition structurally_rejected (now : Time.Time) (req : Http.Request) : Prop :=
  forged req
  \/ dateHeader req = ""
  \/ Time.Parse (dateHeader req) = None
  \/ exists date, Time.Parse (dateHeader req) = Some date /\ Time.Minute * 15 < now - date.

(** A request passes every structural check; [date] is its timestamp. *)
Definition structurally_accepted (now : Time.Time) (req : Http.Request)
    (date : Time.Time) : Prop :=
  ~ forged req
  /\ dateHeader req <> ""
  /\ Time.Parse (dateHeader req) = Some date
  /\ now - date <= Time.Minute * 15.


(** [e] is one of the events that compute a digest. *)
Definition is_digest (e : Event) : bool :=
  match e with
  | EvMD5 _ => true
  | EvReadAll => false
  end.

(** The string holds no line feed. *)
Definition single_line (s : string) : Prop :=
  ~ In (ascii_of_nat 10) (list_ascii_of_string s).

(** Every character of the string is one of the sixteen digits of
    [Hex.hextable]. *)
Definition lower_hex (s : string) : Prop :=
  forall c, In c (list_ascii_of_string s) -> In c (list_ascii_of_string Hex.hextable).

(** ** Example data *)

Module Examples.

Definition mgr : StrictSHA1Manager := {| Secret := "s3cret"; embedded := None |}.
Definition mgr' : StrictSHA1Manager :=
  {| Secret := "other"; embedded := Some mkHMACManager |}.

Definition stamp : string := "2024-01-01T00:00:00.000Z".

(** 2024-01-01T00:00:00Z; five and twenty minutes later; an hour before. *)
Definition t0 : Time.Time := 1704067200000000000.
Definition t5 : Time.Time := t0 + 5 * Time.Minute.
Definition t20 : Time.Time := t0 + 20 * Time.Minute.
Definition early : Time.Time := t0 - 60 * Time.Minute.

Definition dated : gmap string (list string) := {[ "Date" := [stamp] ]}.
Definition undated : gmap string (list string) :=
  {[ "Content-Type" := ["text/plain"] ]}.
Definition garbled : gmap string (list string) :=
  {[ "Date" := ["Mon, 01 Jan 2024 00:00:00 GMT"] ]}.

Definition readable (s : string) : option Http.ReadCloser :=
  Some (Http.Readable (Bytes.of_string s)).
Definition broken (s : string) : option Http.ReadCloser :=
  Some (Http.Broken (Bytes.of_string s) "unexpected EOF").

Definition request (method : string) (header : gmap string (list string))
    (body : option Http.ReadCloser) (len : Z) : Http.Request :=
  {| Http.Method := method; Http.Header := header;
     Http.Body := body; Http.ContentLength := len |}.

Definition get : Http.Request := request "GET" dated None 0.
Definition get_undated : Http.Request := request "GET" undated None 0.
Definition get_garbled : Http.Request := request "GET" garbled None 0.
Definition post_abc : Http.Request := request "POST" dated (readable "abc") 3.
Definition post_abc_typed : Http.Request :=
  request "POST" (<[ "Content-Type" := ["text/plain"] ]> dated) (readable "abc") 3.
Definition post_broken : Http.Request := request "POST" dated (broken "ab") 3.
Definition post_broken_undated : Http.Request :=
  request "POST" undated (broken "ab") 3.
Definition post_nil : Http.Request := request "POST" dated None 3.
Definition post_nil_undated : Http.Request := request "POST" undated None 3.



(** A chunked request: unknown length, with an empty body or none. *)
Definition chunked_empty : Http.Request := request "POST" dated (readable "") (-1).
Definition chunked_nil : Http.Request := request "POST" dated None (-1).

End Examples.

(** ** The library models on known values *)

Example md5_empty :
  Hex.EncodeToString (MD5.Sum []) = "d41d8cd98f00b204e9800998ecf8427e".
Proof. vm_compute. reflexivity. Qed.

Example md5_abc :
  Hex.EncodeToString (MD5.Sum (Bytes.of_string "abc"))
  = "900150983cd24fb0d6963f7d28e17f72".
Proof. vm_compute. reflexivity. Qed.

Example md5_two_blocks :
  Hex.EncodeToString (MD5.Sum (Bytes.of_string
    "12345678901234567890123456789012345678901234567890123456789012345678901234567890"))
  = "57edf4a22be3c955ac49da2e2107b67a".
Proof. vm_compute. reflexivity. Qed.

Example parse_stamp : Time.Parse Examples.stamp = Some Examples.t0.
Proof. vm_compute. reflexivity. Qed.

Example parse_leap_day :
  Time.Parse "2000-02-29T23:59:59.999Z" = Some 951868799999000000
  /\ Time.Parse "2001-02-29T23:59:59.999Z" = None.
Proof. split; vm_compute; reflexivity. Qed.

Example parse_rejects_other_layouts :
  Time.Parse "2024-01-01T00:00:00Z" = None
  /\ Time.Parse "Mon, 01 Jan 2024 00:00:00 GMT" = None
  /\ Time.Parse "2024-01-01T00:00:00.000Z " = None.
Proof. repeat split; vm_compute; reflexivity. Qed.

(** The scenario of the design notes: [GET], no body, five minutes later. *)
Example scenario_fresh :
  CheckHeader Examples.mgr Examples.t5 "my_access_key" Examples.get
  = {| secret := "s3cret";
       serializedData := "GET" +:+ LF +:+ LF +:+ "2024-01-01T00:00:00.000Z";
       autherr := None |}.
Proof. vm_compute. reflexivity. Qed.

Example scenario_stale :
  status (CheckHeader Examples.mgr Examples.t20 "my_access_key" Examples.get)
  = Some 410.
Proof. vm_compute. reflexivity. Qed.

(** ** Strings *)

Section StringFacts.

Lemma append_cons (x : ascii) (a b : string) :
  String x a +:+ b = String x (a +:+ b).
Proof. reflexivity. Qed.

Lemma append_assoc (a b c : string) : (a +:+ b) +:+ c = a +:+ (b +:+ c).
Proof.
  induction a as [|x a IH]; [reflexivity|].
  rewrite !append_cons. now rewrite IH.
Qed.

Lemma length_append (a b : string) :
  String.length (a +:+ b) = (String.length a + String.length b)%nat.
Proof.
  induction a as [|x a IH]; [reflexivity|].
  rewrite append_cons. simpl. now rewrite IH.
Qed.

Lemma append_inv_head (a b c : string) : a +:+ b = a +:+ c -> b = c.
Proof.
  induction a as [|x a IH]; [tauto|].
  rewrite !append_cons. intros [= H]. auto.
Qed.

Lemma append_inv_tail (a b c : string) : a +:+ c = b +:+ c -> a = b.
Proof.
  revert b. induction a as [|x a IH]; intros [|y b] H.
  - reflexivity.
  - apply (f_equal String.length) in H.
    rewrite !length_append in H. simpl in H. lia.
  - apply (f_equal String.length) in H.
    rewrite !length_append in H. simpl in H. lia.
  - rewrite !append_cons in H. injection H as -> H. f_equal. now apply IH.
Qed.

Lemma eqb_false_of_ne (a b : string) : a <> b -> String.eqb a b = false.
Proof. intros H. now apply String.eqb_neq. Qed.

End StringFacts.

(** ** Hexadecimal encoding is injective *)

Section HexFacts.

Lemma byte_of_digits (b : byte) :
  Bytes.of_Z
    (16 * Hex.fromHexChar (Hex.digit (Z.shiftr (Bytes.to_Z b) 4))
     + Hex.fromHexChar (Hex.digit (Z.land (Bytes.to_Z b) 15))) = b.
Proof. destruct b; vm_compute; reflexivity. Qed.

Lemma EncodeToString_inj (p q : list byte) :
  Hex.EncodeToString p = Hex.EncodeToString q -> p = q.
Proof.
  revert q. induction p as [|b p IH]; intros [|c q] H; simpl in H;
    try discriminate; [reflexivity|].
  injection H as Hhi Hlo Hrest. f_equal; [|now apply IH].
  rewrite <- (byte_of_digits b), <- (byte_of_digits c).
  now rewrite Hhi, Hlo.
Qed.

End HexFacts.

(** ** Elapsed time *)

Section TimeFacts.

(** Saturation does not change the outcome of the comparison with
    fifteen minutes. *)
Lemma Since_gt_tolerance (now date : Time.Time) :
  (Time.Minute * 15 <? Time.Since now date) = (Time.Minute * 15 <? now - date).
Proof.
  unfold Time.Since, Time.Sub, Time.maxDuration, Time.minDuration,
    Time.Minute, Time.Second.
  destruct (Z.ltb_spec (60 * 1000000000 * 15) (now - date));
    [apply Z.ltb_lt | apply Z.ltb_ge]; lia.
Qed.

Lemma Parse_empty : Time.Parse "" = None.
Proof. reflexivity. Qed.

End TimeFacts.

(** ** The paths through [CheckHeader] *)

Section Paths.

Variables (m : StrictSHA1Manager) (now : Time.Time) (access : string)
          (req : Http.Request).

Lemma forged_test :
  negb (Http.ContentLength req =? 0) && Http.is_nil (Http.Body req) = true
  <-> forged req.
Proof.
  unfold forged. rewrite andb_true_iff, negb_true_iff, Z.eqb_neq.
  destruct (Http.Body req); simpl; intuition congruence.
Qed.

Lemma forged_dec : forged req \/ ~ forged req.
Proof.
  rewrite <- forged_test.
  destruct (negb (Http.ContentLength req =? 0) && Http.is_nil (Http.Body req));
    [left | right]; congruence.
Qed.

Lemma not_forged_test :
  ~ forged req ->
  negb (Http.ContentLength req =? 0) && Http.is_nil (Http.Body req) = false.
Proof. intros H. apply not_true_is_false. now rewrite forged_test. Qed.

Lemma run_forged :
  forged req ->
  CheckHeader_run m now access req = ([], failure 400 "received a forged packet").
Proof. intros H. apply forged_test in H. unfold CheckHeader_run. now rewrite H. Qed.

Lemma run_no_date :
  ~ forged req -> dateHeader req = "" ->
  CheckHeader_run m now access req = ([], failure 406 "no Date header provided").
Proof.
  intros Hf Hd. unfold CheckHeader_run. rewrite (not_forged_test Hf).
  fold (dateHeader req). now rewrite Hd.
Qed.

Lemma run_bad_date :
  ~ forged req -> Time.Parse (dateHeader req) = None ->
  CheckHeader_run m now access req
  = ([], if String.eqb (dateHeader req) "" then failure 406 "no Date header provided"
         else failure 408 "could not parse date").
Proof.
  intros Hf Hp. unfold CheckHeader_run. rewrite (not_forged_test Hf).
  fold (dateHeader req). rewrite Hp. now destruct (String.eqb _ _).
Qed.

Lemma run_stale (date : Time.Time) :
  ~ forged req -> Time.Parse (dateHeader req) = Some date ->
  Time.Minute * 15 < now - date ->
  CheckHeader_run m now access req = ([], failure 410 "request is too old").
Proof.
  intros Hf Hp Hs. unfold CheckHeader_run. rewrite (not_forged_test Hf).
  fold (dateHeader req). rewrite Hp.
  destruct (String.eqb_spec (dateHeader req) "") as [E|_].
  - rewrite E in Hp. discriminate.
  - rewrite Since_gt_tolerance. apply Z.ltb_lt in Hs. now rewrite Hs.
Qed.

(** Past the structural checks only the access key and the body remain. *)
Lemma run_accepted (date : Time.Time) :
  structurally_accepted now req date ->
  CheckHeader_run m now access req =
    if String.eqb access "my_access_key" then
      if negb (Http.ContentLength req =? 0) then
        match Http.Body req with
        | Some (Http.Readable body) =>
            ([EvReadAll; EvMD5 body],
             {| secret := Secret m;
                serializedData :=
                  ((Http.Method req +:+ LF)
                     +:+ (Hex.EncodeToString (MD5.Sum body) +:+ LF))
                    +:+ dateHeader req;
                autherr := None |})
        | Some (Http.Broken _ _) =>
            ([EvReadAll], failure 402 "could not read the body")
        | None => ([], failure 400 "received a forged packet")
        end
      else
        ([], {| secret := Secret m;
                serializedData := ((Http.Method req +:+ LF) +:+ LF) +:+ dateHeader req;
                autherr := None |})
    else ([], failure 418 "you are a teapot").
Proof.
  intros (Hf & Hd & Hp & Hs). unfold CheckHeader_run.
  rewrite (not_forged_test Hf). fold (dateHeader req).
  rewrite (eqb_false_of_ne _ _ Hd), Hp, Since_gt_tolerance.
  apply Z.ltb_ge in Hs. rewrite Hs.
  destruct (String.eqb access "my_access_key"); [|reflexivity].
  destruct (negb (Http.ContentLength req =? 0)); [|reflexivity].
  destruct (Http.Body req) as [[body|body cause]|]; reflexivity.
Qed.

(** Every request is either rejected by a structural check or passes
    them all. *)
Lemma structural_cases :
  structurally_rejected now req \/ exists date, structurally_accepted now req date.
Proof.
  unfold structurally_rejected, structurally_accepted.
  destruct forged_dec as [Hf|Hf]; [now left; left|].
  destruct (String.eqb_spec (dateHeader req) "") as [Hd|Hd];
    [now left; right; left|].
  destruct (Time.Parse (dateHeader req)) as [date|] eqn:Hp;
    [|now left; right; right; left].
  destruct (Z.lt_ge_cases (Time.Minute * 15) (now - date)) as [Hs|Hs].
  - left. right. right. right. now exists date.
  - right. exists date. repeat split; auto.
Qed.

Lemma run_rejected :
  structurally_rejected now req ->
  exists code msg, CheckHeader_run m now access req = ([], failure code msg)
                   /\ In code [400; 406; 408; 410].
Proof.
  intros H. destruct forged_dec as [Hf|Hf].
  { do 2 eexists. split; [now apply run_forged | simpl; tauto]. }
  destruct H as [H|[H|[H|(date & Hp & Hs)]]].
  - contradiction.
  - do 2 eexists. split; [now apply run_no_date | simpl; tauto].
  - rewrite (run_bad_date Hf H).
    destruct (String.eqb _ _); do 2 eexists; (split; [reflexivity | simpl; tauto]).
  - do 2 eexists. split; [now apply (run_stale date Hf Hp) | simpl; tauto].
Qed.

End Paths.

(** ** Closing goals on concrete requests *)

Ltac by_evaluation :=
  match goal with
  | |- ~ forged _ =>
      let Hlen := fresh in
      let Hnil := fresh in
      intros [Hlen Hnil]; vm_compute in Hlen; vm_compute in Hnil; congruence
  | |- structurally_accepted _ _ _ => repeat split; by_evaluation
  | |- _ <> _ => vm_compute; congruence
  | |- (_ <= _)%Z => vm_compute; congruence
  | |- (_ < _)%Z => vm_compute; congruence
  | |- _ = _ => vm_compute; reflexivity
  end.

(** ** The claims *)

(** C1: for a request with access key "my_access_key" whose Date header is
    present, parses under the fixed format and is at most fifteen minutes in
    the past, and whose body is readable when ContentLength is non-zero,
    CheckHeader returns a nil error, the manager's Secret, and the signing
    string made of the method, a newline, the hex MD5 digest of the raw body
    bytes (the empty string when ContentLength is zero), a newline, and the
    Date header value verbatim. *)
Theorem CheckHeader_known_key (m : StrictSHA1Manager) (now : Time.Time)
    (req : Http.Request) (date : Time.Time) :
  dateHeader req <> "" ->
  Time.Parse (dateHeader req) = Some date ->
  now - date <= Time.Minute * 15 ->
  (Http.ContentLength req <> 0 ->
   exists body, Http.Body req = Some (Http.Readable body)) ->
  CheckHeader m now "my_access_key" req
  = {| secret := Secret m;
       serializedData :=
         Http.Method req +:+ LF +:+ bodyDigest req +:+ LF +:+ dateHeader req;
       autherr := None |}.
Proof.
  intros Hd Hp Hs Hb.
  assert (Hacc : structurally_accepted now req date).
  { repeat split; auto. intros [Hlen Hnil].
    destruct (Hb Hlen) as [body Hbody]. congruence. }
  unfold CheckHeader, bodyDigest, rawBody.
  rewrite (@run_accepted m now "my_access_key" req date Hacc). simpl String.eqb. cbv iota.
  destruct (Z.eqb_spec (Http.ContentLength req) 0) as [Hz|Hnz]; simpl negb; cbv iota.
  - simpl. f_equal. now rewrite !append_assoc.
  - destruct (Hb Hnz) as [body Hbody]. rewrite Hbody. simpl. f_equal.
    now rewrite !append_assoc.
Qed.

Lemma CheckHeader_known_key_witness :
  CheckHeader Examples.mgr Examples.t5 "my_access_key" Examples.post_abc
  = {| secret := Secret Examples.mgr;
       serializedData :=
         Http.Method Examples.post_abc +:+ LF +:+ bodyDigest Examples.post_abc
           +:+ LF +:+ dateHeader Examples.post_abc;
       autherr := None |}.
Proof.
  apply (CheckHeader_known_key Examples.mgr Examples.t5 Examples.post_abc Examples.t0).
  - by_evaluation.
  - by_evaluation.
  - by_evaluation.
  - intros _. eexists. reflexivity.
Defined.

(** The status codes that remain possible once the structural checks have
    passed. *)
Lemma accepted_status (m : StrictSHA1Manager) (now : Time.Time)
    (access : string) (req : Http.Request) (date : Time.Time) :
  structurally_accepted now req date ->
  In (status (CheckHeader m now access req)) [None; Some 400; Some 402; Some 418].
Proof.
  intros Hacc. unfold CheckHeader.
  rewrite (@run_accepted m now access req date Hacc).
  destruct (String.eqb access "my_access_key"); [|simpl; tauto].
  destruct (negb (Http.ContentLength req =? 0)); [|simpl; tauto].
  destruct (Http.Body req) as [[body|body cause]|]; simpl; tauto.
Qed.

(** C2 fails as stated: a request without a Date header that declares a
    length and has a nil body is answered 400, not 406. *)
Lemma missing_date_not_always_406 :
  ~ (forall (m : StrictSHA1Manager) (now : Time.Time) (access : string)
            (req : Http.Request),
        dateHeader req = "" ->
        status (CheckHeader m now access req) = Some 406).
Proof.
  intros H.
  specialize (H Examples.mgr Examples.t5 "my_access_key" Examples.post_nil_undated).
  assert (E : dateHeader Examples.post_nil_undated = "") by by_evaluation.
  specialize (H E). vm_compute in H. discriminate H.
Qed.

(** C2, amended: for every request that is not answered by the body test
    (non-zero ContentLength with a nil body, which comes first and gives
    400), the timestamp rules apply in order: a missing Date header gives
    406; a present header that does not parse gives 408; a parsed timestamp
    more than fifteen minutes in the past gives 410; and when all three rules
    pass none of these codes is returned. *)
Theorem timestamp_rules_in_order (m : StrictSHA1Manager) (now : Time.Time)
    (access : string) (req : Http.Request) :
  ~ forged req ->
  (dateHeader req = "" ->
   CheckHeader m now access req = failure 406 "no Date header provided")
  /\ (dateHeader req <> "" -> Time.Parse (dateHeader req) = None ->
      CheckHeader m now access req = failure 408 "could not parse date")
  /\ (forall date, Time.Parse (dateHeader req) = Some date ->
      Time.Minute * 15 < now - date ->
      CheckHeader m now access req = failure 410 "request is too old")
  /\ (forall date, Time.Parse (dateHeader req) = Some date ->
      now - date <= Time.Minute * 15 ->
      ~ In (status (CheckHeader m now access req)) [Some 406; Some 408; Some 410]).
Proof.
  intros Hf. unfold CheckHeader. repeat split.
  - intros Hd. now rewrite run_no_date.
  - intros Hd Hp. rewrite run_bad_date by assumption.
    now rewrite (eqb_false_of_ne _ _ Hd).
  - intros date Hp Hs. now rewrite (@run_stale m now access req date).
  - intros date Hp Hs Hin.
    assert (Hacc : structurally_accepted now req date).
    { repeat split; auto. intros E. rewrite E in Hp. discriminate Hp. }
    pose proof (@accepted_status m now access req date Hacc) as Hst. fold (CheckHeader m now access req) in Hin.
    simpl in Hst, Hin.
    destruct Hst as [E|[E|[E|[E|[]]]]]; rewrite <- E in Hin;
      destruct Hin as [E'|[E'|[E'|[]]]]; discriminate E'.
Qed.

Lemma timestamp_rules_in_order_witness :
  ~ forged Examples.get_undated
  /\ CheckHeader Examples.mgr Examples.t5 "my_access_key" Examples.get_undated
     = failure 406 "no Date header provided".
Proof.
  assert (Hf : ~ forged Examples.get_undated) by by_evaluation.
  split; [exact Hf|].
  apply (timestamp_rules_in_order Examples.mgr Examples.t5 "my_access_key"
           Examples.get_undated Hf).
  by_evaluation.
Defined.

Example timestamp_rules_408 :
  CheckHeader Examples.mgr Examples.t5 "my_access_key" Examples.get_garbled
  = failure 408 "could not parse date".
Proof. vm_compute. reflexivity. Qed.

Example timestamp_rules_410 :
  CheckHeader Examples.mgr Examples.t20 "my_access_key" Examples.get
  = failure 410 "request is too old".
Proof. vm_compute. reflexivity. Qed.

(** C3: when the Date header parses to a timestamp at or after the current
    time, the staleness test is false and CheckHeader does not return the
    stale-request error 410. *)
Theorem future_timestamp_not_stale (m : StrictSHA1Manager) (now : Time.Time)
    (access : string) (req : Http.Request) (date : Time.Time) :
  Time.Parse (dateHeader req) = Some date ->
  now <= date ->
  (Time.Minute * 15 <? Time.Since now date) = false
  /\ status (CheckHeader m now access req) <> Some 410.
Proof.
  intros Hp Hle.
  assert (Hs : now - date <= Time.Minute * 15)
    by (unfold Time.Minute, Time.Second; lia).
  split.
  - rewrite Since_gt_tolerance. now apply Z.ltb_ge.
  - destruct (forged_dec req) as [Hf|Hf].
    + unfold CheckHeader. rewrite run_forged by assumption. discriminate.
    + assert (Hacc : structurally_accepted now req date).
      { repeat split; auto. intros E. rewrite E in Hp. discriminate Hp. }
      pose proof (@accepted_status m now access req date Hacc) as Hst. simpl in Hst.
      intros E. rewrite E in Hst.
      destruct Hst as [E'|[E'|[E'|[E'|[]]]]]; discriminate E'.
Qed.

Lemma future_timestamp_not_stale_witness :
  Time.Parse (dateHeader Examples.get) = Some Examples.t0
  /\ Examples.early <= Examples.t0
  /\ (Time.Minute * 15 <? Time.Since Examples.early Examples.t0) = false
  /\ status (CheckHeader Examples.mgr Examples.early "my_access_key" Examples.get)
     <> Some 410.
Proof.
  assert (Hp : Time.Parse (dateHeader Examples.get) = Some Examples.t0)
    by by_evaluation.
  assert (Hle : Examples.early <= Examples.t0) by by_evaluation.
  split; [exact Hp|]. split; [exact Hle|].
  exact (future_timestamp_not_stale Examples.mgr Examples.early "my_access_key"
           Examples.get Examples.t0 Hp Hle).
Defined.

Example future_timestamp_accepted :
  CheckHeader Examples.mgr Examples.early "my_access_key" Examples.get
  = {| secret := "s3cret";
       serializedData := "GET" +:+ LF +:+ LF +:+ Examples.stamp;
       autherr := None |}.
Proof. vm_compute. reflexivity. Qed.

(** A structural rejection other than the body test is one of the three
    timestamp errors. *)
Lemma run_rejected_timestamp (m : StrictSHA1Manager) (now : Time.Time)
    (access : string) (req : Http.Request) :
  ~ forged req -> structurally_rejected now req ->
  exists code msg, CheckHeader_run m now access req = ([], failure code msg)
                   /\ In code [406; 408; 410].
Proof.
  intros Hf [H|[H|[H|(date & Hp & Hs)]]].
  - contradiction.
  - do 2 eexists. split; [now apply run_no_date | simpl; tauto].
  - rewrite (run_bad_date m now access req Hf H).
    destruct (String.eqb _ _); do 2 eexists; (split; [reflexivity | simpl; tauto]).
  - do 2 eexists. split; [now apply (@run_stale m now access req date) | simpl; tauto].
Qed.

(** C4 fails as stated: an unreadable body on a request without a Date
    header is answered 406, not 402. *)
Lemma unreadable_body_not_always_402 :
  ~ (forall (m : StrictSHA1Manager) (now : Time.Time) (access : string)
            (req : Http.Request) (data : list byte) (cause : string),
        0 < Http.ContentLength req ->
        Http.Body req = Some (Http.Broken data cause) ->
        status (CheckHeader m now access req) = Some 402).
Proof.
  intros H.
  specialize (H Examples.mgr Examples.t5 "my_access_key"
                Examples.post_broken_undated (Bytes.of_string "ab") "unexpected EOF").
  assert (Hlen : 0 < Http.ContentLength Examples.post_broken_undated) by by_evaluation.
  specialize (H Hlen eq_refl). vm_compute in H. discriminate H.
Qed.

Example unreadable_body_unknown_key :
  CheckHeader Examples.mgr Examples.t5 "someone_else" Examples.post_broken
  = failure 418 "you are a teapot".
Proof. vm_compute. reflexivity. Qed.

(** C4, amended: for every request with a non-zero content length (greater
    than zero in particular): a nil body is answered 400 with no event; an
    unreadable body always gives a failure, with one of the codes 402, 406,
    408, 410, 418, and no digest is computed; the code is 402 exactly when the
    structural checks pass and the access key is "my_access_key". *)
Theorem declared_body_missing_or_unreadable (m : StrictSHA1Manager)
    (now : Time.Time) (access : string) (req : Http.Request) :
  Http.ContentLength req <> 0 ->
  (Http.Body req = None ->
   CheckHeader m now access req = failure 400 "received a forged packet"
   /\ CheckHeader_events m now access req = [])
  /\ (forall data cause, Http.Body req = Some (Http.Broken data cause) ->
      (exists code msg, CheckHeader m now access req = failure code msg
                        /\ In code [402; 406; 408; 410; 418])
      /\ (forall e, In e (CheckHeader_events m now access req) -> is_digest e = false)
      /\ (status (CheckHeader m now access req) = Some 402
          <-> access = "my_access_key"
              /\ exists date, structurally_accepted now req date)).
Proof.
  intros Hlen. unfold CheckHeader, CheckHeader_events. split.
  - intros Hnil. rewrite run_forged by (split; assumption). now split.
  - intros data cause Hbody.
    assert (Hf : ~ forged req) by (intros [_ E]; congruence).
    assert (Hnz : negb (Http.ContentLength req =? 0) = true)
      by (apply negb_true_iff; now apply Z.eqb_neq).
    destruct (structural_cases now req) as [Hrej|[date Hacc]].
    + destruct (run_rejected_timestamp m now access req Hf Hrej)
        as (code & msg & E & Hin).
      rewrite E. simpl fst. simpl snd. split; [|split; [|split]].
      * exists code, msg. split; [reflexivity|]. simpl in *. tauto.
      * intros e [].
      * intros Hst. cbn in Hst. simpl in Hin. injection Hst as ->. lia.
      * intros [_ [date Hacc]]. exfalso.
        destruct Hacc as (_ & Hd & Hp & Hs).
        destruct Hrej as [H|[H|[H|(date' & Hp' & Hs')]]]; try congruence.
        rewrite Hp in Hp'. injection Hp' as <-. lia.
    + rewrite (@run_accepted m now access req date Hacc), Hnz, Hbody.
      destruct (String.eqb_spec access "my_access_key") as [Hk|Hk];
        simpl fst; simpl snd; (split; [|split; [|split]]).
      * exists 402, "could not read the body". split; [reflexivity | simpl; tauto].
      * intros e [<-|[]]. reflexivity.
      * intros _. split; [assumption | now exists date].
      * reflexivity.
      * exists 418, "you are a teapot". split; [reflexivity | simpl; tauto].
      * intros e [].
      * intros Hst. discriminate Hst.
      * intros [E _]. contradiction.
Qed.

Lemma declared_body_missing_or_unreadable_witness :
  Http.ContentLength Examples.post_broken <> 0
  /\ status (CheckHeader Examples.mgr Examples.t5 "my_access_key" Examples.post_broken)
     = Some 402.
Proof.
  assert (Hlen : Http.ContentLength Examples.post_broken <> 0) by by_evaluation.
  split; [exact Hlen|].
  apply (proj2 (declared_body_missing_or_unreadable Examples.mgr Examples.t5
                  "my_access_key" Examples.post_broken Hlen)
           (Bytes.of_string "ab") "unexpected EOF" eq_refl).
  split; [reflexivity|]. exists Examples.t0. by_evaluation.
Defined.

Example declared_body_missing :
  CheckHeader_run Examples.mgr Examples.t5 "my_access_key" Examples.post_nil
  = ([], failure 400 "received a forged packet").
Proof. vm_compute. reflexivity. Qed.

(** C5: for a request that fails a structural check (nil body with a
    non-zero content length, missing Date, unparseable Date or stale Date),
    CheckHeader returns the same values, after the same events, for any two
    access keys. *)
Theorem structural_failure_ignores_access_key (m : StrictSHA1Manager)
    (now : Time.Time) (req : Http.Request) (a1 a2 : string) :
  structurally_rejected now req ->
  CheckHeader m now a1 req = CheckHeader m now a2 req
  /\ CheckHeader_events m now a1 req = CheckHeader_events m now a2 req.
Proof.
  intros Hrej. unfold CheckHeader, CheckHeader_events.
  enough (E : CheckHeader_run m now a1 req = CheckHeader_run m now a2 req)
    by (now rewrite E).
  destruct (forged_dec req) as [Hf|Hf].
  { now rewrite !run_forged. }
  destruct Hrej as [H|[H|[H|(date & Hp & Hs)]]].
  - contradiction.
  - now rewrite !run_no_date.
  - now rewrite !run_bad_date.
  - now rewrite !(@run_stale m now _ req date).
Qed.

Lemma structural_failure_ignores_access_key_witness :
  structurally_rejected Examples.t20 Examples.get
  /\ CheckHeader Examples.mgr Examples.t20 "my_access_key" Examples.get
     = CheckHeader Examples.mgr Examples.t20 "someone_else" Examples.get.
Proof.
  assert (H : structurally_rejected Examples.t20 Examples.get).
  { right. right. right. exists Examples.t0. split; by_evaluation. }
  split; [exact H|].
  exact (proj1 (structural_failure_ignores_access_key Examples.mgr Examples.t20
                  Examples.get "my_access_key" "someone_else" H)).
Defined.

(** Status 400 comes from the body test alone: the second place where the
    embedding answers 400 is never reached. *)
Lemma status_400_only_forged (m : StrictSHA1Manager) (now : Time.Time)
    (access : string) (req : Http.Request) :
  status (CheckHeader m now access req) = Some 400 -> forged req.
Proof.
  intros Hst. destruct (forged_dec req) as [Hf|Hf]; [assumption|]. exfalso.
  unfold CheckHeader in Hst.
  destruct (structural_cases now req) as [Hrej|[date Hacc]].
  - destruct (run_rejected_timestamp m now access req Hf Hrej)
      as (code & msg & E & Hin).
    rewrite E in Hst. cbn in Hst. simpl in Hin. injection Hst as ->. lia.
  - rewrite (@run_accepted m now access req date Hacc) in Hst.
    destruct (String.eqb access "my_access_key"); [|discriminate Hst].
    destruct (Z.eqb_spec (Http.ContentLength req) 0) as [Hz|Hnz];
      [discriminate Hst|].
    simpl negb in Hst. cbv iota in Hst.
    destruct (Http.Body req) as [[body|body cause]|] eqn:Hb;
      try discriminate Hst.
    apply Hf. now split.
Qed.

(** A digest is computed only for the known access key. *)
Lemma digest_only_for_known_key (m : StrictSHA1Manager) (now : Time.Time)
    (access : string) (req : Http.Request) (e : Event) :
  In e (CheckHeader_events m now access req) -> is_digest e = true ->
  access = "my_access_key".
Proof.
  unfold CheckHeader_events, CheckHeader_run.
  destruct (negb (Http.ContentLength req =? 0) && Http.is_nil (Http.Body req));
    [intros []|].
  destruct (String.eqb (Http.Get (Http.Header req) "Date") ""); [intros []|].
  destruct (Time.Parse (Http.Get (Http.Header req) "Date")) as [date|];
    [|intros []].
  destruct (Time.Minute * 15 <? Time.Since now date); [intros []|].
  destruct (String.eqb_spec access "my_access_key") as [Hk|Hk]; [auto|intros []].
Qed.

(** C6: for a request that passes every structural check with an access key
    other than "my_access_key", CheckHeader returns the error 418 with empty
    secret and signing string, and the call has no event: the body is not
    read and no digest is computed. *)
Theorem unknown_key_rejected (m : StrictSHA1Manager) (now : Time.Time)
    (access : string) (req : Http.Request) (date : Time.Time) :
  structurally_accepted now req date ->
  access <> "my_access_key" ->
  CheckHeader m now access req = failure 418 "you are a teapot"
  /\ secret (CheckHeader m now access req) = ""
  /\ serializedData (CheckHeader m now access req) = ""
  /\ CheckHeader_events m now access req = [].
Proof.
  intros Hacc Hk. unfold CheckHeader, CheckHeader_events.
  rewrite (@run_accepted m now access req date Hacc).
  rewrite (eqb_false_of_ne _ _ Hk). repeat split.
Qed.

Lemma unknown_key_rejected_witness :
  structurally_accepted Examples.t5 Examples.post_abc Examples.t0
  /\ "someone_else" <> "my_access_key"
  /\ CheckHeader Examples.mgr Examples.t5 "someone_else" Examples.post_abc
     = failure 418 "you are a teapot"
  /\ CheckHeader_events Examples.mgr Examples.t5 "someone_else" Examples.post_abc = [].
Proof.
  assert (Hacc : structurally_accepted Examples.t5 Examples.post_abc Examples.t0)
    by by_evaluation.
  assert (Hk : "someone_else" <> "my_access_key") by by_evaluation.
  split; [exact Hacc|]. split; [exact Hk|].
  pose proof (unknown_key_rejected Examples.mgr Examples.t5 "someone_else" Examples.post_abc Examples.t0 Hacc Hk) as (E & _ & _ & Ev).
  split; [exact E | exact Ev].
Defined.

(** Whatever the manager, a call either fails with values that do not
    depend on it, or succeeds with its Secret and a signing string that does
    not depend on it. *)
Lemma run_shape (now : Time.Time) (access : string) (req : Http.Request) :
  (exists evs code msg,
      forall m, CheckHeader_run m now access req = (evs, failure code msg))
  \/ (exists evs data,
         forall m, CheckHeader_run m now access req
                   = (evs, {| secret := Secret m; serializedData := data;
                              autherr := None |})).
Proof.
  unfold CheckHeader_run.
  destruct (negb (Http.ContentLength req =? 0) && Http.is_nil (Http.Body req));
    [left; eauto|].
  destruct (String.eqb (Http.Get (Http.Header req) "Date") ""); [left; eauto|].
  destruct (Time.Parse (Http.Get (Http.Header req) "Date")) as [date|];
    [|left; eauto].
  destruct (Time.Minute * 15 <? Time.Since now date); [left; eauto|].
  destruct (String.eqb access "my_access_key"); [|left; eauto].
  destruct (negb (Http.ContentLength req =? 0)); [|right; eauto].
  destruct (Http.Body req) as [[body|body cause]|]; simpl;
    [right; eauto | left; eauto | left; eauto].
Qed.

(** C7: the error CheckHeader returns is the same for any two managers, so
    it does not depend on the Secret; and whenever the error is non-nil the
    returned secret and signing string are empty. *)
Theorem errors_never_carry_secret (m1 m2 : StrictSHA1Manager)
    (now : Time.Time) (access : string) (req : Http.Request) :
  autherr (CheckHeader m1 now access req) = autherr (CheckHeader m2 now access req)
  /\ (autherr (CheckHeader m1 now access req) <> None ->
      secret (CheckHeader m1 now access req) = ""
      /\ serializedData (CheckHeader m1 now access req) = "").
Proof.
  unfold CheckHeader.
  destruct (run_shape now access req) as [(evs & code & msg & E)|(evs & data & E)];
    rewrite !E; simpl; split; auto.
  intros H. now contradiction H.
Qed.

Lemma errors_never_carry_secret_witness :
  autherr (CheckHeader Examples.mgr Examples.t20 "my_access_key" Examples.get) <> None
  /\ autherr (CheckHeader Examples.mgr Examples.t20 "my_access_key" Examples.get)
     = autherr (CheckHeader Examples.mgr' Examples.t20 "my_access_key" Examples.get)
  /\ secret (CheckHeader Examples.mgr Examples.t20 "my_access_key" Examples.get) = ""
  /\ serializedData (CheckHeader Examples.mgr Examples.t20 "my_access_key" Examples.get)
     = "".
Proof.
  assert (H : autherr (CheckHeader Examples.mgr Examples.t20 "my_access_key" Examples.get)
              <> None) by by_evaluation.
  split; [exact H|].
  pose proof (errors_never_carry_secret Examples.mgr Examples.mgr' Examples.t20
                "my_access_key" Examples.get) as [E F].
  split; [exact E | exact (F H)].
Defined.


Example same_bytes_nil_or_empty :
  rawBody Examples.chunked_nil = rawBody Examples.chunked_empty
  /\ status (CheckHeader Examples.mgr Examples.t5 "my_access_key" Examples.chunked_nil)
     = Some 400
  /\ status (CheckHeader Examples.mgr Examples.t5 "my_access_key" Examples.chunked_empty)
     = None.
Proof. repeat split; vm_compute; reflexivity. Qed.



Example same_result_despite_other_headers :
  CheckHeader Examples.mgr Examples.t5 "my_access_key" Examples.post_abc
  = CheckHeader Examples.mgr Examples.t5 "my_access_key" Examples.post_abc_typed.
Proof. vm_compute. reflexivity. Qed.

(** C10: Authorize returns a non-nil value for every access key, the first
    message for "my_access_key" and the second for any other key, and the
    same value whatever the manager. *)
Theorem Authorize_total (m m' : StrictSHA1Manager) (access : string) :
  Authorize m access <> any_nil
  /\ (access = "my_access_key" ->
      Authorize m access = any_string "All good with my access key!")
  /\ (access <> "my_access_key" ->
      Authorize m access = any_string "All good with any access key!")
  /\ Authorize m access = Authorize m' access.
Proof.
  unfold Authorize.
  destruct (String.eqb_spec access "my_access_key") as [E|E];
    (split; [discriminate|]); (split; [|split]); try reflexivity;
    intros H; congruence.
Qed.

Lemma Authorize_total_witness :
  "someone_else" <> "my_access_key"
  /\ Authorize Examples.mgr "my_access_key" = any_string "All good with my access key!"
  /\ Authorize Examples.mgr "someone_else" = any_string "All good with any access key!".
Proof.
  assert (Hk : "someone_else" <> "my_access_key") by by_evaluation.
  split; [exact Hk|]. split.
  - exact (proj1 (proj2 (Authorize_total Examples.mgr Examples.mgr' "my_access_key"))
             eq_refl).
  - exact (proj1 (proj2 (proj2 (Authorize_total Examples.mgr Examples.mgr' "someone_else")))
             Hk).
Defined.


(** * Further properties of [CheckHeader] and [Authorize] *)

(** ** Lines and suffixes *)

Section LineFacts.

Lemma list_ascii_of_append (a b : string) :
  list_ascii_of_string (a +:+ b)
  = (list_ascii_of_string a ++ list_ascii_of_string b)%list.
Proof.
  induction a as [|x a IH]; [reflexivity|].
  rewrite append_cons. simpl. now rewrite IH.
Qed.

Lemma single_line_append (a b : string) :
  single_line (a +:+ b) <-> single_line a /\ single_line b.
Proof.
  unfold single_line. rewrite list_ascii_of_append, in_app_iff. tauto.
Qed.

Lemma single_line_cons (c : ascii) (s : string) :
  single_line (String c s) <-> c <> ascii_of_nat 10 /\ single_line s.
Proof.
  unfold single_line. simpl. split.
  - intros H. split; [intros ->|]; tauto.
  - intros [Hc Hs] [E|E]; [now apply Hc | now apply Hs].
Qed.

Lemma single_line_empty : single_line "".
Proof. intros []. Qed.

Lemma LF_not_single_line (a b : string) : ~ single_line (a +:+ LF +:+ b).
Proof.
  rewrite !single_line_append. intros (_ & H & _). apply H. now left.
Qed.

(** The text after the last line feed, and the text before it, are
    determined by the whole. *)
Lemma last_line_inj (a1 a2 d1 d2 : string) :
  single_line d1 -> single_line d2 ->
  a1 +:+ LF +:+ d1 = a2 +:+ LF +:+ d2 ->
  a1 = a2 /\ d1 = d2.
Proof.
  intros H1 H2. revert a2. induction a1 as [|x a1 IH]; intros [|y a2] E.
  - change (String (ascii_of_nat 10) d1 = String (ascii_of_nat 10) d2) in E.
    injection E as E. now split.
  - exfalso.
    change (String (ascii_of_nat 10) d1 = String y (a2 +:+ LF +:+ d2)) in E.
    injection E as _ E. rewrite E in H1.
    now apply (LF_not_single_line a2 d2).
  - exfalso.
    change (String x (a1 +:+ LF +:+ d1) = String (ascii_of_nat 10) d2) in E.
    injection E as _ E. rewrite <- E in H2.
    now apply (LF_not_single_line a1 d1).
  - rewrite !append_cons in E. injection E as -> E.
    destruct (IH a2 E) as [-> ->]. now split.
Qed.

(** Two suffixes of equal length are cut off together. *)
Lemma equal_length_suffix (a b h k : string) :
  String.length h = String.length k ->
  a +:+ h = b +:+ k -> a = b /\ h = k.
Proof.
  intros Hlen. revert b. induction a as [|x a IH]; intros [|y b] E.
  - now split.
  - exfalso. apply (f_equal String.length) in E.
    rewrite !length_append in E. simpl in E. lia.
  - exfalso. apply (f_equal String.length) in E.
    rewrite !length_append in E. simpl in E. lia.
  - rewrite !append_cons in E. injection E as -> E.
    destruct (IH b E) as [-> ->]. now split.
Qed.

End LineFacts.

(** ** The digest line *)

Section DigestFacts.

Lemma length_EncodeToString (p : list byte) :
  String.length (Hex.EncodeToString p) = (2 * length p)%nat.
Proof. induction p as [|b p IH]; simpl; [reflexivity | rewrite IH; lia]. Qed.

Lemma digits_of_byte (b : byte) :
  In (Hex.digit (Z.shiftr (Bytes.to_Z b) 4)) (list_ascii_of_string Hex.hextable)
  /\ In (Hex.digit (Z.land (Bytes.to_Z b) 15)) (list_ascii_of_string Hex.hextable).
Proof. destruct b; vm_compute; tauto. Qed.

Lemma lower_hex_EncodeToString (p : list byte) : lower_hex (Hex.EncodeToString p).
Proof.
  induction p as [|b p IH]; intros c Hc; simpl in Hc; [contradiction|].
  destruct (digits_of_byte b) as [Hhi Hlo].
  destruct Hc as [<-|[<-|Hc]]; auto.
Qed.

Lemma length_le_bytes (n : nat) (x : Z) : length (MD5.le_bytes n x) = n.
Proof. unfold MD5.le_bytes. now rewrite length_map, length_seq. Qed.

(** The checksum has sixteen bytes. *)
Lemma length_Sum (data : list byte) : length (MD5.Sum data) = 16%nat.
Proof.
  unfold MD5.Sum.
  destruct (MD5.blocks _ _ _) as [[[a b] c] d].
  now rewrite length_map, !length_app, !length_le_bytes.
Qed.

Lemma length_digest_line (data : list byte) :
  String.length (Hex.EncodeToString (MD5.Sum data)) = 32%nat.
Proof. now rewrite length_EncodeToString, length_Sum. Qed.

Lemma single_line_lower_hex (s : string) : lower_hex s -> single_line s.
Proof.
  intros H Hin. specialize (H _ Hin). vm_compute in H.
  repeat (destruct H as [H|H]; [discriminate H|]). contradiction.
Qed.

End DigestFacts.

(** ** What [time.Parse] accepts under the fixed layout *)

Section ParseFacts.

Lemma digit_not_LF (c : ascii) : Time.is_digit c = true -> c <> ascii_of_nat 10.
Proof. intros H ->. vm_compute in H. discriminate H. Qed.

Lemma getnum_single_line (s : string) (fixed : bool) (n : Z) (rest : string) :
  Time.getnum s fixed = Some (n, rest) -> single_line rest -> single_line s.
Proof.
  unfold Time.getnum. destruct s as [|c0 [|c1 s]]; [discriminate| |].
  - destruct (Time.is_digit c0) eqn:H0; simpl; [|discriminate].
    destruct fixed; [discriminate|]. intros [= _ <-] _.
    apply single_line_cons. split; [now apply digit_not_LF | apply single_line_empty].
  - destruct (Time.is_digit c0) eqn:H0; simpl; [|discriminate].
    destruct (Time.is_digit c1) eqn:H1; simpl.
    + intros [= _ <-] Hr. apply single_line_cons. split; [now apply digit_not_LF|].
      apply single_line_cons. split; [now apply digit_not_LF | assumption].
    + destruct fixed; [discriminate|]. intros [= _ <-] Hr.
      apply single_line_cons. split; [now apply digit_not_LF | assumption].
Qed.

Lemma skip_single_line (prefix value rest : string) :
  Time.skip value prefix = Some rest ->
  single_line prefix -> single_line rest -> single_line value.
Proof.
  revert value. induction prefix as [|p prefix IH]; intros [|v value]; simpl;
    try discriminate.
  - now intros [= <-].
  - now intros [= <-].
  - destruct (Ascii.eqb_spec v p) as [->|_]; [|discriminate].
    intros E Hp Hr. apply single_line_cons in Hp as [Hp Hp'].
    apply single_line_cons. split; [assumption | now apply IH].
Qed.

Lemma digits_single_line (s : string) (acc x : Z) :
  Time.digits acc s = Some x -> single_line s.
Proof.
  revert acc. induction s as [|c s IH]; intros acc; simpl.
  - intros _. apply single_line_empty.
  - destruct (Time.is_digit c) eqn:Hc; [|discriminate]. intros E.
    apply single_line_cons. split; [now apply digit_not_LF | now apply (IH _ E)].
Qed.

Lemma atoi_cons (c : ascii) (s : string) :
  Time.atoi (String c s)
  = if Ascii.eqb c "-" then x ← Time.digits 0 s; Some (- x)
    else if Ascii.eqb c "+" then Time.digits 0 s
    else Time.digits 0 (String c s).
Proof. destruct c as [[] [] [] [] [] [] [] []]; reflexivity. Qed.

Lemma atoi_single_line (s : string) (x : Z) :
  Time.atoi s = Some x -> single_line s.
Proof.
  destruct s as [|c s]; [intros _; apply single_line_empty|].
  rewrite atoi_cons.
  destruct (Ascii.eqb_spec c "-") as [->|_].
  - destruct (Time.digits 0 s) as [y|] eqn:E; [|discriminate]. intros _.
    apply single_line_cons. split; [discriminate | now apply (digits_single_line _ _ _ E)].
  - destruct (Ascii.eqb_spec c "+") as [->|_].
    + intros E. apply single_line_cons.
      split; [discriminate | now apply (digits_single_line _ _ _ E)].
    + apply digits_single_line.
Qed.

Lemma substring_drop (n : nat) (s : string) :
  (n <= String.length s)%nat -> String.substring 0 n s +:+ Time.drop n s = s.
Proof.
  revert s. induction n as [|n IH]; intros [|c s] Hn; simpl in *;
    try reflexivity; try lia.
  rewrite append_cons. f_equal. apply IH. lia.
Qed.

Lemma cut_single_line (n : nat) (s : string) :
  (n <= String.length s)%nat ->
  single_line (String.substring 0 n s) -> single_line (Time.drop n s) ->
  single_line s.
Proof.
  intros Hn Hhead Htail. rewrite <- (substring_drop n s Hn).
  apply single_line_append. now split.
Qed.

Lemma parseNanoseconds_single_line (value : string) (ns : Z) :
  (4 <= String.length value)%nat ->
  Time.parseNanoseconds value = Some ns ->
  single_line (Time.drop 4 value) -> single_line value.
Proof.
  destruct value as [|c rest]; [discriminate|]. simpl. intros Hlen.
  destruct (Ascii.eqb_spec c ".") as [->|_]; simpl.
  - destruct (Time.atoi (String.substring 0 3 rest)) as [x|] eqn:E; [|discriminate].
    intros _ Hr. apply single_line_cons. split; [discriminate|].
    apply (cut_single_line 3); [lia | now apply (atoi_single_line _ _ E) | assumption].
  - destruct (Ascii.eqb_spec c ",") as [->|_]; [|discriminate].
    destruct (Time.atoi (String.substring 0 3 rest)) as [x|] eqn:E; [|discriminate].
    intros _ Hr. apply single_line_cons. split; [discriminate|].
    apply (cut_single_line 3); [lia | now apply (atoi_single_line _ _ E) | assumption].
Qed.

(** A string accepted under the layout holds no line feed. *)
Lemma Parse_single_line (value : string) (t : Time.Time) :
  Time.Parse value = Some t -> single_line value.
Proof.
  unfold Time.Parse, mbind, option_bind.
  destruct (Nat.ltb_spec (String.length value) 4) as [|Hlen];
    [discriminate|]. rewrite orb_false_l.
  destruct (negb (Time.isDigit value 0)); [discriminate|].
  destruct (Time.atoi (String.substring 0 4 value)) as [year|] eqn:Eyear;
    [|discriminate].
  destruct (Time.skip (Time.drop 4 value) "-") as [v1|] eqn:E1; [|discriminate].
  destruct (Time.getnum v1 true) as [[month v2]|] eqn:E2; [|discriminate].
  destruct ((month <=? 0) || (12 <? month)); [discriminate|].
  destruct (Time.skip v2 "-") as [v3|] eqn:E3; [|discriminate].
  destruct (Time.getnum v3 true) as [[day v4]|] eqn:E4; [|discriminate].
  destruct (Time.skip v4 "T") as [v5|] eqn:E5; [|discriminate].
  destruct (Time.getnum v5 false) as [[hour v6]|] eqn:E6; [|discriminate].
  destruct ((hour <? 0) || (24 <=? hour)); [discriminate|].
  destruct (Time.skip v6 ":") as [v7|] eqn:E7; [|discriminate].
  destruct (Time.getnum v7 true) as [[min v8]|] eqn:E8; [|discriminate].
  destruct ((min <? 0) || (60 <=? min)); [discriminate|].
  destruct (Time.skip v8 ":") as [v9|] eqn:E9; [|discriminate].
  destruct (Time.getnum v9 true) as [[sec v10]|] eqn:E10; [|discriminate].
  destruct ((sec <? 0) || (60 <=? sec)); [discriminate|].
  destruct (Nat.ltb_spec (String.length v10) 4) as [|Hlen10]; [discriminate|].
  destruct (Time.parseNanoseconds v10) as [nsec|] eqn:E11; [|discriminate].
  destruct (Time.skip (Time.drop 4 v10) "Z") as [v11|] eqn:E12; [|discriminate].
  destruct v11 as [|c v11]; [|discriminate]. intros _.
  assert (Hlit : forall c : ascii, c <> ascii_of_nat 10 -> single_line (String c "")).
  { intros c Hc. apply single_line_cons. split; [assumption | apply single_line_empty]. }
  apply (cut_single_line 4); [assumption | now apply (atoi_single_line _ _ Eyear)|].
  apply (skip_single_line _ _ _ E1); [now apply Hlit|].
  apply (getnum_single_line _ _ _ _ E2).
  apply (skip_single_line _ _ _ E3); [now apply Hlit|].
  apply (getnum_single_line _ _ _ _ E4).
  apply (skip_single_line _ _ _ E5); [now apply Hlit|].
  apply (getnum_single_line _ _ _ _ E6).
  apply (skip_single_line _ _ _ E7); [now apply Hlit|].
  apply (getnum_single_line _ _ _ _ E8).
  apply (skip_single_line _ _ _ E9); [now apply Hlit|].
  apply (getnum_single_line _ _ _ _ E10).
  apply (parseNanoseconds_single_line _ _ Hlen10 E11).
  apply (skip_single_line _ _ _ E12); [now apply Hlit | apply single_line_empty].
Qed.

End ParseFacts.

(** ** Every path of [CheckHeader], with its condition *)

Section Cases.

Variables (m : StrictSHA1Manager) (now : Time.Time) (access : string)
          (req : Http.Request).

Lemma run_known_key_broken (date : Time.Time) (data : list byte) (cause : string) :
  structurally_accepted now req date -> access = "my_access_key" ->
  Http.ContentLength req <> 0 -> Http.Body req = Some (Http.Broken data cause) ->
  CheckHeader_run m now access req
  = ([EvReadAll], failure 402 "could not read the body").
Proof.
  intros Hacc -> Hlen Hb. rewrite (@run_accepted m now _ req date Hacc), Hb.
  apply Z.eqb_neq in Hlen. now rewrite Hlen.
Qed.

Lemma run_known_key_readable (date : Time.Time) (body : list byte) :
  structurally_accepted now req date -> access = "my_access_key" ->
  Http.ContentLength req <> 0 -> Http.Body req = Some (Http.Readable body) ->
  CheckHeader_run m now access req
  = ([EvReadAll; EvMD5 body],
     {| secret := Secret m;
        serializedData :=
          ((Http.Method req +:+ LF) +:+ (Hex.EncodeToString (MD5.Sum body) +:+ LF))
            +:+ dateHeader req;
        autherr := None |}).
Proof.
  intros Hacc -> Hlen Hb. rewrite (@run_accepted m now _ req date Hacc), Hb.
  apply Z.eqb_neq in Hlen. now rewrite Hlen.
Qed.

Lemma run_known_key_no_length (date : Time.Time) :
  structurally_accepted now req date -> access = "my_access_key" ->
  Http.ContentLength req = 0 ->
  CheckHeader_run m now access req
  = ([], {| secret := Secret m;
            serializedData := ((Http.Method req +:+ LF) +:+ LF) +:+ dateHeader req;
            autherr := None |}).
Proof.
  intros Hacc -> Hlen. rewrite (@run_accepted m now _ req date Hacc).
  now rewrite Hlen.
Qed.

Lemma run_unknown_key (date : Time.Time) :
  structurally_accepted now req date -> access <> "my_access_key" ->
  CheckHeader_run m now access req = ([], failure 418 "you are a teapot").
Proof.
  intros Hacc Hk. rewrite (@run_accepted m now _ req date Hacc).
  now rewrite (eqb_false_of_ne _ _ Hk).
Qed.

Lemma run_unparseable :
  ~ forged req -> dateHeader req <> "" -> Time.Parse (dateHeader req) = None ->
  CheckHeader_run m now access req = ([], failure 408 "could not parse date").
Proof.
  intros Hf Hd Hp. rewrite (run_bad_date m now access req Hf Hp).
  now rewrite (eqb_false_of_ne _ _ Hd).
Qed.

(** The eight paths are exhaustive. *)
Lemma run_cases :
  (forged req
   /\ CheckHeader_run m now access req = ([], failure 400 "received a forged packet"))
  \/ (~ forged req /\ dateHeader req = ""
      /\ CheckHeader_run m now access req = ([], failure 406 "no Date header provided"))
  \/ (~ forged req /\ dateHeader req <> "" /\ Time.Parse (dateHeader req) = None
      /\ CheckHeader_run m now access req = ([], failure 408 "could not parse date"))
  \/ (exists date,
         ~ forged req /\ Time.Parse (dateHeader req) = Some date
         /\ Time.Minute * 15 < now - date
         /\ CheckHeader_run m now access req = ([], failure 410 "request is too old"))
  \/ (exists date,
         structurally_accepted now req date /\ access <> "my_access_key"
         /\ CheckHeader_run m now access req = ([], failure 418 "you are a teapot"))
  \/ (exists date data cause,
         structurally_accepted now req date /\ access = "my_access_key"
         /\ Http.ContentLength req <> 0
         /\ Http.Body req = Some (Http.Broken data cause)
         /\ CheckHeader_run m now access req
            = ([EvReadAll], failure 402 "could not read the body"))
  \/ (exists date body,
         structurally_accepted now req date /\ access = "my_access_key"
         /\ Http.ContentLength req <> 0
         /\ Http.Body req = Some (Http.Readable body)
         /\ CheckHeader_run m now access req
            = ([EvReadAll; EvMD5 body],
               {| secret := Secret m;
                  serializedData :=
                    ((Http.Method req +:+ LF)
                       +:+ (Hex.EncodeToString (MD5.Sum body) +:+ LF))
                      +:+ dateHeader req;
                  autherr := None |}))
  \/ (exists date,
         structurally_accepted now req date /\ access = "my_access_key"
         /\ Http.ContentLength req = 0
         /\ CheckHeader_run m now access req
            = ([], {| secret := Secret m;
                      serializedData :=
                        ((Http.Method req +:+ LF) +:+ LF) +:+ dateHeader req;
                      autherr := None |})).
Proof.
  destruct (forged_dec req) as [Hf|Hf].
  { left. split; [assumption | now apply run_forged]. }
  right.
  destruct (String.eqb_spec (dateHeader req) "") as [Hd|Hd].
  { left. repeat split; try assumption. now apply run_no_date. }
  right.
  destruct (Time.Parse (dateHeader req)) as [date|] eqn:Hp.
  2:{ left. repeat split; try assumption. now apply run_unparseable. }
  right.
  destruct (Z.lt_ge_cases (Time.Minute * 15) (now - date)) as [Hs|Hs].
  { left. exists date. repeat split; try assumption. now apply (@run_stale m now access req date). }
  right.
  assert (Hacc : structurally_accepted now req date) by (repeat split; assumption).
  destruct (String.eqb_spec access "my_access_key") as [Hk|Hk].
  2:{ left. exists date. repeat split; try assumption. now apply (run_unknown_key date). }
  right.
  destruct (Z.eq_dec (Http.ContentLength req) 0) as [Hz|Hnz].
  { right. right. exists date. repeat split; try assumption.
    now apply (run_known_key_no_length date). }
  destruct (Http.Body req) as [[body|data cause]|] eqn:Hb.
  - right. left. exists date, body. repeat split; try assumption.
    now apply (run_known_key_readable date).
  - left. exists date, data, cause. repeat split; try assumption.
    now apply (run_known_key_broken date data cause).
  - exfalso. apply Hf. now split.
Qed.

End Cases.

Ltac on_each_path m now access req :=
  unfold CheckHeader, CheckHeader_events in *;
  destruct (run_cases m now access req)
    as [(Hf & HR)
       |[(Hf & Hd & HR)
        |[(Hf & Hd & Hp & HR)
         |[(date & Hf & Hp & Hs & HR)
          |[(date & Hacc & Hk & HR)
           |[(date & data & cause & Hacc & Hk & Hlen & Hb & HR)
            |[(date & body & Hacc & Hk & Hlen & Hb & HR)
             |(date & Hacc & Hk & Hlen & HR)]]]]]]];
  rewrite HR in *; cbn [fst snd] in *.

(** ** Properties *)

(** X1: CheckHeader returns a nil error exactly when the access key is
    "my_access_key", the request passes every structural check, and the body
    is readable whenever ContentLength is non-zero. *)
Theorem nil_error_iff (m : StrictSHA1Manager) (now : Time.Time)
    (access : string) (req : Http.Request) :
  autherr (CheckHeader m now access req) = None
  <-> access = "my_access_key"
      /\ (exists date, structurally_accepted now req date)
      /\ (Http.ContentLength req <> 0 ->
          exists body, Http.Body req = Some (Http.Readable body)).
Proof.
  split.
  - intros Hnil. on_each_path m now access req; try discriminate Hnil.
    + split; [assumption|]. split; [now exists date|]. intros _. now exists body.
    + split; [assumption|]. split; [now exists date|]. intros Hnz. contradiction.
  - intros (Hk & [date Hacc] & Hb). unfold CheckHeader.
    destruct (Z.eq_dec (Http.ContentLength req) 0) as [Hz|Hnz].
    + now rewrite (run_known_key_no_length m now access req date Hacc Hk Hz).
    + destruct (Hb Hnz) as [body Hbody].
      now rewrite (run_known_key_readable m now access req date body Hacc Hk Hnz Hbody).
Qed.

(** X2: each error status has one cause.  400: a non-zero ContentLength with
    a nil body.  406: otherwise, an empty Date header.  408: otherwise, a Date
    header that does not parse.  410: otherwise, a timestamp more than
    fifteen minutes old.  418: every structural check passed and the key is
    not "my_access_key".  402: every structural check passed, the key is
    "my_access_key", ContentLength is non-zero and reading the body failed. *)
Theorem status_decision_table (m : StrictSHA1Manager) (now : Time.Time)
    (access : string) (req : Http.Request) :
  (status (CheckHeader m now access req) = Some 400 <-> forged req)
  /\ (status (CheckHeader m now access req) = Some 406
      <-> ~ forged req /\ dateHeader req = "")
  /\ (status (CheckHeader m now access req) = Some 408
      <-> ~ forged req /\ dateHeader req <> ""
          /\ Time.Parse (dateHeader req) = None)
  /\ (status (CheckHeader m now access req) = Some 410
      <-> ~ forged req
          /\ exists date, Time.Parse (dateHeader req) = Some date
                          /\ Time.Minute * 15 < now - date)
  /\ (status (CheckHeader m now access req) = Some 418
      <-> access <> "my_access_key"
          /\ exists date, structurally_accepted now req date)
  /\ (status (CheckHeader m now access req) = Some 402
      <-> access = "my_access_key"
          /\ (exists date, structurally_accepted now req date)
          /\ Http.ContentLength req <> 0
          /\ exists data cause, Http.Body req = Some (Http.Broken data cause)).
Proof.
  split; [|split; [|split; [|split; [|split]]]]; split.
  - intros Hst. on_each_path m now access req; try discriminate Hst. assumption.
  - intros Hf. unfold CheckHeader. now rewrite run_forged.
  - intros Hst. on_each_path m now access req; try discriminate Hst. now split.
  - intros [Hf Hd]. unfold CheckHeader. now rewrite run_no_date.
  - intros Hst. on_each_path m now access req; try discriminate Hst. now repeat split.
  - intros (Hf & Hd & Hp). unfold CheckHeader. now rewrite run_unparseable.
  - intros Hst. on_each_path m now access req; try discriminate Hst.
    split; [assumption|]. now exists date.
  - intros (Hf & date & Hp & Hs). unfold CheckHeader.
    now rewrite (@run_stale m now access req date).
  - intros Hst. on_each_path m now access req; try discriminate Hst.
    split; [assumption|]. now exists date.
  - intros (Hk & date & Hacc). unfold CheckHeader.
    now rewrite (run_unknown_key m now access req date).
  - intros Hst. on_each_path m now access req; try discriminate Hst.
    split; [assumption|]. split; [now exists date|]. split; [assumption|].
    now exists data, cause.
  - intros (Hk & [date Hacc] & Hlen & data & cause & Hb). unfold CheckHeader.
    now rewrite (run_known_key_broken m now access req date data cause).
Qed.

(** X3: the accepted key is the only one Authorize singles out: whenever
    CheckHeader returns a nil error for an access key, Authorize answers that
    key with "All good with my access key!". *)
Theorem Authorize_after_CheckHeader (m : StrictSHA1Manager) (now : Time.Time)
    (access : string) (req : Http.Request) :
  autherr (CheckHeader m now access req) = None ->
  Authorize m access = any_string "All good with my access key!".
Proof.
  intros Hnil. on_each_path m now access req; try discriminate Hnil;
    subst access; reflexivity.
Qed.

Lemma Authorize_after_CheckHeader_witness :
  autherr (CheckHeader Examples.mgr Examples.t5 "my_access_key" Examples.post_abc) = None
  /\ Authorize Examples.mgr "my_access_key"
     = any_string "All good with my access key!".
Proof.
  assert (H : autherr (CheckHeader Examples.mgr Examples.t5 "my_access_key"
                         Examples.post_abc) = None) by by_evaluation.
  split; [exact H|].
  exact (Authorize_after_CheckHeader Examples.mgr Examples.t5 "my_access_key"
           Examples.post_abc H).
Defined.

(** X4: the body is read only for the known key, after every structural
    check, and only when ContentLength is non-zero; and a digest is computed
    only over the bytes of a readable body, on a call that succeeds. *)
Theorem body_read_only_when_needed (m : StrictSHA1Manager) (now : Time.Time)
    (access : string) (req : Http.Request) :
  (CheckHeader_events m now access req <> []
   <-> access = "my_access_key"
       /\ (exists date, structurally_accepted now req date)
       /\ Http.ContentLength req <> 0)
  /\ (forall data, In (EvMD5 data) (CheckHeader_events m now access req) ->
      Http.Body req = Some (Http.Readable data)
      /\ autherr (CheckHeader m now access req) = None).
Proof.
  split; [split|].
  - intros Hev. on_each_path m now access req; try (now contradiction Hev).
    + split; [assumption|]. split; [now exists date | assumption].
    + split; [assumption|]. split; [now exists date | assumption].
  - intros (Hk & [date Hacc] & Hlen). unfold CheckHeader_events.
    destruct (Http.Body req) as [[body|data cause]|] eqn:Hb.
    + now rewrite (run_known_key_readable m now access req date body).
    + now rewrite (run_known_key_broken m now access req date data cause).
    + exfalso. destruct Hacc as [Hf _]. apply Hf. now split.
  - intros bytes Hin. on_each_path m now access req; simpl in Hin;
      try contradiction.
    + destruct Hin as [E|[]]. discriminate E.
    + destruct Hin as [E|[E|[]]]; [discriminate E|].
      injection E as ->. now split.
Qed.

(** The signing string of a successful call, line by line. *)
Lemma signing_string_lines (m : StrictSHA1Manager) (now : Time.Time)
    (access : string) (req : Http.Request) :
  autherr (CheckHeader m now access req) = None ->
  serializedData (CheckHeader m now access req)
  = Http.Method req +:+ LF +:+ bodyDigest req +:+ LF +:+ dateHeader req
  /\ single_line (dateHeader req).
Proof.
  intros Hnil. unfold bodyDigest, rawBody.
  on_each_path m now access req; try discriminate Hnil;
    destruct Hacc as (_ & _ & Hp & _); apply Parse_single_line in Hp.
  - apply Z.eqb_neq in Hlen. rewrite Hlen, Hb. simpl.
    split; [now rewrite !append_assoc | assumption].
  - rewrite Hlen. simpl.
    split; [now rewrite !append_assoc | assumption].
Qed.

(** X5: on success the signing string is the method, a line feed, a digest
    line, a line feed and the Date header; the digest line is empty when
    ContentLength is zero and is thirty-two lower-case hexadecimal digits
    otherwise, and the Date header holds no line feed. *)
Theorem signing_string_format (m : StrictSHA1Manager) (now : Time.Time)
    (access : string) (req : Http.Request) :
  autherr (CheckHeader m now access req) = None ->
  serializedData (CheckHeader m now access req)
  = Http.Method req +:+ LF +:+ bodyDigest req +:+ LF +:+ dateHeader req
  /\ String.length (bodyDigest req)
     = (if Http.ContentLength req =? 0 then 0%nat else 32%nat)
  /\ lower_hex (bodyDigest req)
  /\ single_line (dateHeader req).
Proof.
  intros Hnil.
  destruct (signing_string_lines m now access req Hnil) as [Hform Hdate].
  split; [exact Hform|]. split; [|split; [|exact Hdate]].
  - unfold bodyDigest.
    destruct (Http.ContentLength req =? 0);
      [reflexivity | apply length_digest_line].
  - unfold bodyDigest.
    destruct (Http.ContentLength req =? 0);
      [intros c [] | apply lower_hex_EncodeToString].
Qed.

Lemma signing_string_format_witness :
  autherr (CheckHeader Examples.mgr Examples.t5 "my_access_key" Examples.post_abc) = None
  /\ String.length (bodyDigest Examples.post_abc) = 32%nat.
Proof.
  assert (H : autherr (CheckHeader Examples.mgr Examples.t5 "my_access_key"
                         Examples.post_abc) = None) by by_evaluation.
  split; [exact H|].
  exact (proj1 (proj2 (signing_string_format Examples.mgr Examples.t5
                         "my_access_key" Examples.post_abc H))).
Defined.

(** A non-empty line cannot end where a line feed ends. *)
Lemma line_end_clash (a b h : string) :
  h <> "" -> single_line h -> a +:+ h <> b +:+ LF.
Proof.
  intros Hne Hh. revert b. induction a as [|x a IH]; intros [|y b] E.
  - change (h = LF) in E. subst h. apply Hh. now left.
  - change (h = String y b +:+ LF +:+ "") in E. subst h.
    now apply (LF_not_single_line (String y b) "").
  - change (String x (a +:+ h) = String (ascii_of_nat 10) "") in E.
    injection E as _ E. apply (f_equal String.length) in E.
    rewrite length_append in E. destruct h; [congruence | simpl in E; lia].
  - rewrite !append_cons in E. injection E as _ E. now apply (IH b).
Qed.

Lemma digest_line_cases (req : Http.Request) :
  (Http.ContentLength req = 0 /\ bodyDigest req = "")
  \/ (Http.ContentLength req <> 0
      /\ bodyDigest req = Hex.EncodeToString (MD5.Sum (rawBody req))
      /\ String.length (bodyDigest req) = 32%nat
      /\ bodyDigest req <> ""
      /\ single_line (bodyDigest req)).
Proof.
  unfold bodyDigest.
  destruct (Z.eqb_spec (Http.ContentLength req) 0) as [Hz|Hnz]; [now left|].
  right. split; [assumption|]. split; [reflexivity|].
  split; [apply length_digest_line|]. split.
  - intros E. apply (f_equal String.length) in E.
    rewrite length_digest_line in E. discriminate E.
  - apply single_line_lower_hex, lower_hex_EncodeToString.
Qed.

Lemma regroup_lines (a g d : string) :
  a +:+ LF +:+ g +:+ LF +:+ d = (a +:+ LF +:+ g) +:+ LF +:+ d.
Proof. now rewrite !append_assoc. Qed.

(** X6: the signing string binds the request.  When two calls succeed with
    the same signing string, the two requests have the same method, the same
    Date header, the same digest line, content lengths that are both zero or
    both non-zero, and, when non-zero, bodies with the same MD5 checksum. *)
Theorem signing_string_binds_request (m1 m2 : StrictSHA1Manager)
    (now1 now2 : Time.Time) (a1 a2 : string) (r1 r2 : Http.Request) :
  autherr (CheckHeader m1 now1 a1 r1) = None ->
  autherr (CheckHeader m2 now2 a2 r2) = None ->
  serializedData (CheckHeader m1 now1 a1 r1)
  = serializedData (CheckHeader m2 now2 a2 r2) ->
  Http.Method r1 = Http.Method r2
  /\ dateHeader r1 = dateHeader r2
  /\ bodyDigest r1 = bodyDigest r2
  /\ (Http.ContentLength r1 = 0 <-> Http.ContentLength r2 = 0)
  /\ (Http.ContentLength r1 <> 0 -> MD5.Sum (rawBody r1) = MD5.Sum (rawBody r2)).
Proof.
  intros H1 H2 E.
  destruct (signing_string_lines m1 now1 a1 r1 H1) as [E1 D1].
  destruct (signing_string_lines m2 now2 a2 r2 H2) as [E2 D2].
  rewrite E1, E2, !regroup_lines in E.
  apply last_line_inj in E as [E Hdate]; [|assumption|assumption].
  destruct (digest_line_cases r1) as [[Z1 G1]|(Z1 & G1 & L1 & N1 & S1)];
    destruct (digest_line_cases r2) as [[Z2 G2]|(Z2 & G2 & L2 & N2 & S2)].
  - rewrite G1, G2 in *.
    change (Http.Method r1 +:+ LF = Http.Method r2 +:+ LF) in E.
    apply append_inv_tail in E. repeat split; tauto.
  - exfalso. rewrite G1 in E.
    change (Http.Method r1 +:+ LF = Http.Method r2 +:+ LF +:+ bodyDigest r2) in E.
    rewrite <- append_assoc in E. symmetry in E. revert E.
    now apply line_end_clash.
  - exfalso. rewrite G2 in E.
    change (Http.Method r1 +:+ LF +:+ bodyDigest r1 = Http.Method r2 +:+ LF) in E.
    rewrite <- append_assoc in E. revert E.
    now apply line_end_clash.
  - rewrite <- !append_assoc in E.
    apply equal_length_suffix in E as [E Hdig]; [|congruence].
    apply append_inv_tail in E.
    split; [assumption|]. split; [assumption|]. split; [assumption|].
    split; [tauto|]. intros _. rewrite G1, G2 in Hdig.
    now apply EncodeToString_inj.
Qed.

Lemma signing_string_binds_request_witness :
  autherr (CheckHeader Examples.mgr Examples.t5 "my_access_key" Examples.post_abc) = None
  /\ autherr (CheckHeader Examples.mgr' Examples.t0 "my_access_key"
                Examples.post_abc_typed) = None
  /\ serializedData (CheckHeader Examples.mgr Examples.t5 "my_access_key"
                       Examples.post_abc)
     = serializedData (CheckHeader Examples.mgr' Examples.t0 "my_access_key"
                         Examples.post_abc_typed)
  /\ MD5.Sum (rawBody Examples.post_abc) = MD5.Sum (rawBody Examples.post_abc_typed).
Proof.
  assert (H1 : autherr (CheckHeader Examples.mgr Examples.t5 "my_access_key"
                          Examples.post_abc) = None) by by_evaluation.
  assert (H2 : autherr (CheckHeader Examples.mgr' Examples.t0 "my_access_key"
                          Examples.post_abc_typed) = None) by by_evaluation.
  assert (E : serializedData (CheckHeader Examples.mgr Examples.t5 "my_access_key"
                                Examples.post_abc)
              = serializedData (CheckHeader Examples.mgr' Examples.t0 "my_access_key"
                                  Examples.post_abc_typed)) by by_evaluation.
  assert (Hlen : Http.ContentLength Examples.post_abc <> 0) by by_evaluation.
  split; [exact H1|]. split; [exact H2|]. split; [exact E|].
  exact (proj2 (proj2 (proj2 (proj2
           (signing_string_binds_request Examples.mgr Examples.mgr'
              Examples.t5 Examples.t0 "my_access_key" "my_access_key"
              Examples.post_abc Examples.post_abc_typed H1 H2 E)))) Hlen).
Defined.

(** An absent body and an empty body that is declared do not sign alike. *)
Example empty_declared_body_is_hashed :
  serializedData (CheckHeader Examples.mgr Examples.t5 "my_access_key"
                    (Examples.request "POST" Examples.dated (Examples.readable "") (-1)))
  = "POST" +:+ LF +:+ "d41d8cd98f00b204e9800998ecf8427e" +:+ LF +:+ Examples.stamp.
Proof. vm_compute. reflexivity. Qed.

(** X7: the clock enters only through the staleness test, and the window
    never reopens.  For two readings now <= now' of the clock: a request
    answered 410 at now is answered 410 at now'; and a request not answered
    410 at now' gets at now the same values, after the same events. *)
Theorem replay_window_monotone (m : StrictSHA1Manager) (now now' : Time.Time)
    (access : string) (req : Http.Request) :
  now <= now' ->
  (status (CheckHeader m now access req) = Some 410 ->
   status (CheckHeader m now' access req) = Some 410)
  /\ (status (CheckHeader m now' access req) <> Some 410 ->
      CheckHeader m now access req = CheckHeader m now' access req
      /\ CheckHeader_events m now access req = CheckHeader_events m now' access req).
Proof.
  intros Hle.
  assert (Hstale : forall date, ~ forged req ->
            Time.Parse (dateHeader req) = Some date ->
            Time.Minute * 15 < now - date ->
            CheckHeader_run m now' access req = ([], failure 410 "request is too old")).
  { intros date Hf Hp Hs. apply (@run_stale m now' access req date); auto. lia. }
  split.
  - intros Hst. on_each_path m now access req; try discriminate Hst.
    now rewrite (Hstale date Hf Hp Hs).
  - intros Hst.
    enough (E : CheckHeader_run m now access req = CheckHeader_run m now' access req)
      by (unfold CheckHeader, CheckHeader_events; now rewrite E).
    unfold CheckHeader in Hst.
    destruct (forged_dec req) as [Hf|Hf]; [now rewrite !run_forged|].
    destruct (String.eqb_spec (dateHeader req) "") as [Hd|Hd];
      [now rewrite !run_no_date|].
    destruct (Time.Parse (dateHeader req)) as [date|] eqn:Hp;
      [|now rewrite !run_unparseable].
    destruct (Z.lt_ge_cases (Time.Minute * 15) (now' - date)) as [Hs|Hs].
    + exfalso. apply Hst. now rewrite (@run_stale m now' access req date).
    + assert (Hacc' : structurally_accepted now' req date) by (repeat split; auto).
      assert (Hacc : structurally_accepted now req date)
        by (repeat split; auto; lia).
      now rewrite (@run_accepted m now access req date Hacc),
                  (@run_accepted m now' access req date Hacc').
Qed.

Lemma replay_window_monotone_witness :
  Examples.t20 <= Examples.t20 + Time.Minute
  /\ status (CheckHeader Examples.mgr Examples.t20 "my_access_key" Examples.get)
     = Some 410
  /\ status (CheckHeader Examples.mgr (Examples.t20 + Time.Minute) "my_access_key"
               Examples.get)
     = Some 410
  /\ Examples.early <= Examples.t5
  /\ status (CheckHeader Examples.mgr Examples.t5 "my_access_key" Examples.post_abc)
     <> Some 410
  /\ CheckHeader Examples.mgr Examples.early "my_access_key" Examples.post_abc
     = CheckHeader Examples.mgr Examples.t5 "my_access_key" Examples.post_abc.
Proof.
  assert (H1 : Examples.t20 <= Examples.t20 + Time.Minute) by by_evaluation.
  assert (H2 : status (CheckHeader Examples.mgr Examples.t20 "my_access_key"
                         Examples.get) = Some 410) by by_evaluation.
  assert (H3 : Examples.early <= Examples.t5) by by_evaluation.
  assert (H4 : status (CheckHeader Examples.mgr Examples.t5 "my_access_key"
                         Examples.post_abc) <> Some 410) by by_evaluation.
  split; [exact H1|]. split; [exact H2|]. split.
  - exact (proj1 (replay_window_monotone Examples.mgr Examples.t20
                    (Examples.t20 + Time.Minute) "my_access_key" Examples.get H1) H2).
  - split; [exact H3|]. split; [exact H4|].
    exact (proj1 (proj2 (replay_window_monotone Examples.mgr Examples.early
                           Examples.t5 "my_access_key" Examples.post_abc H3) H4)).
Defined.

(** X8: the manager enters the result through its Secret alone, and only on
    success: for any two managers the signing strings, the errors and the
    events are the same, and the returned secret is the manager's Secret
    when the error is nil and the empty string otherwise. *)
Theorem Secret_only_in_returned_secret (m1 m2 : StrictSHA1Manager)
    (now : Time.Time) (access : string) (req : Http.Request) :
  serializedData (CheckHeader m1 now access req)
  = serializedData (CheckHeader m2 now access req)
  /\ autherr (CheckHeader m1 now access req) = autherr (CheckHeader m2 now access req)
  /\ CheckHeader_events m1 now access req = CheckHeader_events m2 now access req
  /\ secret (CheckHeader m1 now access req)
     = match autherr (CheckHeader m1 now access req) with
       | None => Secret m1
       | Some _ => ""
       end.
Proof.
  unfold CheckHeader, CheckHeader_events.
  destruct (run_shape now access req) as [(evs & code & msg & E)|(evs & data & E)];
    rewrite !E; simpl; repeat split.
Qed.

(** X9: the errors form a closed catalogue of six (status, message) pairs;
    no error carries any part of the request, of the access key or of the
    Secret. *)
Theorem error_catalogue (m : StrictSHA1Manager) (now : Time.Time)
    (access : string) (req : Http.Request) (e : AuthErr) :
  autherr (CheckHeader m now access req) = Some e ->
  In (Status e, Err e)
     [ (400, "received a forged packet");
       (406, "no Date header provided");
       (408, "could not parse date");
       (410, "request is too old");
       (402, "could not read the body");
       (418, "you are a teapot") ].
Proof.
  intros He. on_each_path m now access req; try discriminate He;
    injection He as <-; simpl; tauto.
Qed.

Lemma error_catalogue_witness :
  autherr (CheckHeader Examples.mgr Examples.t5 "someone_else" Examples.post_abc)
  = Some {| Status := 418; Err := "you are a teapot" |}
  /\ In (418, "you are a teapot")
        [ (400, "received a forged packet");
          (406, "no Date header provided");
          (408, "could not parse date");
          (410, "request is too old");
          (402, "could not read the body");
          (418, "you are a teapot") ].
Proof.
  assert (H : autherr (CheckHeader Examples.mgr Examples.t5 "someone_else"
                         Examples.post_abc)
              = Some {| Status := 418; Err := "you are a teapot" |}) by by_evaluation.
  split; [exact H|].
  exact (error_catalogue Examples.mgr Examples.t5 "someone_else" Examples.post_abc
           {| Status := 418; Err := "you are a teapot" |} H).
Defined.
